(** * Execution harness for untrusted program text ([evaluation/utils_execute.py])

    A shallow embedding of the harness: the output suppressor
    ([WriteOnlyStringIO], [swallow_io]), the working-directory sandbox
    ([create_tempdir], [chdir]), the capability restrictor
    ([reliability_guard]), the execution worker ([unsafe_execute]) and the
    supervisor ([check_correctness]).

    Process-global state of the interpreter (current directory, the bindings
    of [sys.stdin]/[sys.stdout]/[sys.stderr], the names rebound to [None],
    the shared result list ...) is a record [world]; Python code is a function
    from worlds to a world and an outcome (normal return, raised exception, or
    still running when the process is terminated). *)

From stdpp Require Import base gmap strings list pretty.

Open Scope string_scope.
Open Scope list_scope.
Open Scope Z_scope.

(** ** Python values and strings *)

(** The values that occur as exception arguments. *)
Inductive pyval :=
| PStr (s : string)
| PInt (n : Z)
| PNone.

(** [str(v)], what [format] inserts for a [{}] field. *)
Definition py_str (v : pyval) : string :=
  match v with
  | PStr s => s
  | PInt n => pretty n
  | PNone => "None"
  end.

Definition newline : Ascii.ascii := Ascii.ascii_of_nat 10.

Definition nl : string := String newline "".

(** [s.split('\n')]: the pieces between line feeds; never empty. *)
Fixpoint split_lines (s : string) : list string :=
  match s with
  | "" => [""]
  | String c s' =>
      if Ascii.eqb c newline then "" :: split_lines s'
      else match split_lines s' with
           | piece :: rest => String c piece :: rest
           | [] => [String c ""]
           end
  end.

(** ["\n".join(l)] *)
Fixpoint join_lines (l : list string) : string :=
  match l with
  | [] => ""
  | [x] => x
  | x :: rest => x +:+ nl +:+ join_lines rest
  end.

(** ** Exceptions *)

(** Which [except] clause of [unsafe_execute] an exception matches:
    [except SyntaxError] (the class and its subclasses), then
    [except Exception]; [SystemExit] and the other direct subclasses of
    [BaseException] ([KeyboardInterrupt], [GeneratorExit]) match neither. *)
Inductive exn_base :=
| BSyntaxError
| BException
| BSystemExit
| BBaseException.

Record exn := mkExn {
  exn_kind : exn_base;
  exn_class : string;          (* e.__class__.__name__ *)
  exn_args : list pyval;       (* e.args *)
  exn_str : string;            (* str(e) *)
  exn_lineno : option Z;       (* e.lineno, None unless the raiser set it *)
  exn_tb : list positive       (* line numbers of the traceback entries below
                                  the frame that was running when the
                                  exception was caught, outermost first *)
}.

Definition TypeError_not_callable (line : positive) : exn :=
  mkExn BException "TypeError" [PStr "'NoneType' object is not callable"]
        "'NoneType' object is not callable" None [line].

Definition TypeError_operand : exn :=
  mkExn BException "TypeError"
        [PStr "unsupported operand type(s) for -: 'NoneType' and 'int'"]
        "unsupported operand type(s) for -: 'NoneType' and 'int'" None [].

Definition IndexError_ (what : string) : exn :=
  mkExn BException "IndexError" [PStr what] what None [].

Definition OSError_ (line : positive) : exn :=
  mkExn BException "OSError" [] "" None [line].

Definition ImportError_ (name : string) : exn :=
  mkExn BException "ModuleNotFoundError"
        [PStr ("import of " +:+ name +:+ " halted; None in sys.modules")]
        ("import of " +:+ name +:+ " halted; None in sys.modules") None [].

(** ** The process state *)

(** What [sys.stdin], [sys.stdout] or [sys.stderr] is bound to: the
    channel's own original stream, a [WriteOnlyStringIO] object (by identity),
    or the null device. *)
Inductive stream :=
| Std
| Buf (id : nat)
| DevNull.

Inductive out_fd := Stdout | Stderr.

(** A piece of output.  [ReprOf l] is the text [print] produces for a list
    of strings, [TupleOf args] the text of a tuple of values,
    [TracebackOf e] the report of an uncaught exception. *)
Inductive emitted :=
| Text (s : string)
| ReprOf (l : list string)
| TupleOf (args : list pyval)
| TracebackOf (e : exn).

Record world := mkWorld {
  cwd : string;                       (* current working directory *)
  fs : gset string;                   (* paths that exist *)
  sys_stdin : stream;
  sys_stdout : stream;
  sys_stderr : stream;
  stdin_pending : list string;        (* input waiting on the real stdin *)
  console : list (out_fd * emitted);  (* what reached the real stdout/stderr *)
  buffers : list (list emitted);      (* contents of the StringIO objects *)
  disabled : gset string;             (* qualified names rebound to None *)
  blocked_modules : gset string;      (* sys.modules[name] = None *)
  environ : gmap string string;
  rlimits : gmap string (Z * Z);
  faulthandler_enabled : bool;
  platform_system : string;
  channel : list string               (* the shared result list *)
}.

Definition set_cwd (d : string) (w : world) : world :=
  mkWorld d (fs w) (sys_stdin w) (sys_stdout w) (sys_stderr w)
    (stdin_pending w) (console w) (buffers w) (disabled w) (blocked_modules w)
    (environ w) (rlimits w) (faulthandler_enabled w) (platform_system w)
    (channel w).

Definition set_fs (f : gset string) (w : world) : world :=
  mkWorld (cwd w) f (sys_stdin w) (sys_stdout w) (sys_stderr w)
    (stdin_pending w) (console w) (buffers w) (disabled w) (blocked_modules w)
    (environ w) (rlimits w) (faulthandler_enabled w) (platform_system w)
    (channel w).

Definition set_sys_stdin (s : stream) (w : world) : world :=
  mkWorld (cwd w) (fs w) s (sys_stdout w) (sys_stderr w)
    (stdin_pending w) (console w) (buffers w) (disabled w) (blocked_modules w)
    (environ w) (rlimits w) (faulthandler_enabled w) (platform_system w)
    (channel w).

Definition set_sys_stdout (s : stream) (w : world) : world :=
  mkWorld (cwd w) (fs w) (sys_stdin w) s (sys_stderr w)
    (stdin_pending w) (console w) (buffers w) (disabled w) (blocked_modules w)
    (environ w) (rlimits w) (faulthandler_enabled w) (platform_system w)
    (channel w).

Definition set_sys_stderr (s : stream) (w : world) : world :=
  mkWorld (cwd w) (fs w) (sys_stdin w) (sys_stdout w) s
    (stdin_pending w) (console w) (buffers w) (disabled w) (blocked_modules w)
    (environ w) (rlimits w) (faulthandler_enabled w) (platform_system w)
    (channel w).

Definition set_stdin_pending (p : list string) (w : world) : world :=
  mkWorld (cwd w) (fs w) (sys_stdin w) (sys_stdout w) (sys_stderr w)
    p (console w) (buffers w) (disabled w) (blocked_modules w)
    (environ w) (rlimits w) (faulthandler_enabled w) (platform_system w)
    (channel w).

Definition set_console (c : list (out_fd * emitted)) (w : world) : world :=
  mkWorld (cwd w) (fs w) (sys_stdin w) (sys_stdout w) (sys_stderr w)
    (stdin_pending w) c (buffers w) (disabled w) (blocked_modules w)
    (environ w) (rlimits w) (faulthandler_enabled w) (platform_system w)
    (channel w).

Definition set_buffers (b : list (list emitted)) (w : world) : world :=
  mkWorld (cwd w) (fs w) (sys_stdin w) (sys_stdout w) (sys_stderr w)
    (stdin_pending w) (console w) b (disabled w) (blocked_modules w)
    (environ w) (rlimits w) (faulthandler_enabled w) (platform_system w)
    (channel w).

Definition set_disabled (d : gset string) (w : world) : world :=
  mkWorld (cwd w) (fs w) (sys_stdin w) (sys_stdout w) (sys_stderr w)
    (stdin_pending w) (console w) (buffers w) d (blocked_modules w)
    (environ w) (rlimits w) (faulthandler_enabled w) (platform_system w)
    (channel w).

Definition set_blocked_modules (d : gset string) (w : world) : world :=
  mkWorld (cwd w) (fs w) (sys_stdin w) (sys_stdout w) (sys_stderr w)
    (stdin_pending w) (console w) (buffers w) (disabled w) d
    (environ w) (rlimits w) (faulthandler_enabled w) (platform_system w)
    (channel w).

Definition set_environ (e : gmap string string) (w : world) : world :=
  mkWorld (cwd w) (fs w) (sys_stdin w) (sys_stdout w) (sys_stderr w)
    (stdin_pending w) (console w) (buffers w) (disabled w) (blocked_modules w)
    e (rlimits w) (faulthandler_enabled w) (platform_system w)
    (channel w).

Definition set_rlimits (r : gmap string (Z * Z)) (w : world) : world :=
  mkWorld (cwd w) (fs w) (sys_stdin w) (sys_stdout w) (sys_stderr w)
    (stdin_pending w) (console w) (buffers w) (disabled w) (blocked_modules w)
    (environ w) r (faulthandler_enabled w) (platform_system w)
    (channel w).

Definition set_faulthandler (b : bool) (w : world) : world :=
  mkWorld (cwd w) (fs w) (sys_stdin w) (sys_stdout w) (sys_stderr w)
    (stdin_pending w) (console w) (buffers w) (disabled w) (blocked_modules w)
    (environ w) (rlimits w) b (platform_system w)
    (channel w).

Definition set_channel (c : list string) (w : world) : world :=
  mkWorld (cwd w) (fs w) (sys_stdin w) (sys_stdout w) (sys_stderr w)
    (stdin_pending w) (console w) (buffers w) (disabled w) (blocked_modules w)
    (environ w) (rlimits w) (faulthandler_enabled w) (platform_system w)
    c.

(** ** Computations *)

(** How a piece of Python code ends: it returns, it raises, or it is still
    running (blocked, looping, sleeping) when its process is terminated. *)
Inductive outcome (A : Type) :=
| Ret (a : A)
| Raise (e : exn)
| Hang.

Arguments Ret {A} a.
Arguments Raise {A} e.
Arguments Hang {A}.

Definition M (A : Type) : Type := world → world * outcome A.

Definition ret {A} (a : A) : M A := λ w, (w, Ret a).

Definition raise {A} (e : exn) : M A := λ w, (w, Raise e).

Definition bind {A B} (m : M A) (k : A → M B) : M B :=
  λ w, match m w with
       | (w', Ret a) => k a w'
       | (w', Raise e) => (w', Raise e)
       | (w', Hang) => (w', Hang)
       end.

Notation "x <- m ;; k" := (bind m (λ x, k))
  (at level 100, m at next level, right associativity).
Notation "m ;;; k" := (bind m (λ _, k))
  (at level 100, right associativity).

Definition get {A} (f : world → A) : M A := λ w, (w, Ret (f w)).

Definition modify (f : world → world) : M unit := λ w, (f w, Ret tt).

(** [try: body / except BaseException as e: handler e]; a clause that does
    not match re-raises in [handler]. *)
Definition try_except {A} (body : M A) (handler : exn → M A) : M A :=
  λ w, match body w with
       | (w', Raise e) => handler e w'
       | r => r
       end.

(** [try: body / finally: fin].  The [finally] block runs when the body
    returns and when it raises; an exception of the [finally] block replaces
    the outcome of the body.  A terminated process runs nothing. *)
Definition try_finally {A} (body : M A) (fin : M unit) : M A :=
  λ w, match body w with
       | (w', Hang) => (w', Hang)
       | (w', r) =>
           match fin w' with
           | (w'', Ret _) => (w'', r)
           | (w'', Raise e) => (w'', Raise e)
           | (w'', Hang) => (w'', Hang)
           end
       end.

(** ** Primitives of the runtime *)

(** Calling the object bound to a qualified name at source line [line]:
    once the name has been rebound to [None] the call raises [TypeError]. *)
Definition call {A} (name : string) (line : positive) (impl : M A) : M A :=
  λ w, if bool_decide (name ∈ disabled w)
       then (w, Raise (TypeError_not_callable line))
       else impl w.

(** [NAME = None] for a module attribute. *)
Definition rebind_none (name : string) : M unit :=
  modify (λ w, set_disabled ({[name]} ∪ disabled w) w).

(** [import NAME]: a module whose [sys.modules] entry is [None] cannot be
    imported. *)
Definition import_module (name : string) : M unit :=
  λ w, if bool_decide (name ∈ blocked_modules w)
       then (w, Raise (ImportError_ name))
       else (w, Ret tt).

(** [os.getcwd()] and [os.chdir(d)]; that [d] exists is not checked. *)
Definition os_getcwd (line : positive) : M string :=
  call "os.getcwd" line (get cwd).

Definition os_chdir (line : positive) (d : string) : M unit :=
  call "os.chdir" line (modify (set_cwd d)).

(** [p] is [d] or lies below it. *)
Definition under (d p : string) : bool :=
  String.eqb d p || String.prefix (d +:+ "/") p.

(** The rest of [s] after the prefix [p]. *)
Fixpoint strip_prefix (p s : string) : option string :=
  match p, s with
  | "", _ => Some s
  | String a p', String b s' =>
      if Ascii.eqb a b then strip_prefix p' s' else None
  | String _ _, "" => None
  end.

Definition tmp_prefix : string := "/tmp/tmp".

(** [tempfile.mkdtemp()], by its contract: a new directory under the
    system's temporary directory whose name was not in use. *)
Definition fresh_tmp (f : gset string) : string :=
  tmp_prefix +:+ fresh (set_omap (strip_prefix tmp_prefix) f : gset string).

Definition mkdtemp : M string :=
  λ w, let d := fresh_tmp (fs w) in (set_fs ({[d]} ∪ fs w) w, Ret d).

(** A line of the standard library; its number plays no role. *)
Definition stdlib_line : positive := 1.

(** [shutil.rmtree(d)], called from the standard library: [d] and
    everything below it is removed, directories with [os.rmdir] and files
    with [os.unlink]. *)
Definition shutil_rmtree (d : string) : M unit :=
  call "shutil.rmtree" stdlib_line
    (call "os.rmdir" stdlib_line
       (call "os.unlink" stdlib_line
          (modify
             (λ w, set_fs (filter (λ p, under d p = false) (fs w)) w)))).

(** [with tempfile.TemporaryDirectory() as name: body name]; the clean-up
    looks [shutil.rmtree] up when it runs. *)
Definition TemporaryDirectory {A} (body : string → M A) : M A :=
  name <- mkdtemp ;;
  try_finally (body name) (shutil_rmtree name).

(** Writing [x] to the stream bound to the output channel [fd]. *)
Definition stream_write (fd : out_fd) (s : stream) (x : emitted) : M unit :=
  match s with
  | Std => modify (λ w, set_console (console w ++ [(fd, x)]) w)
  | Buf id =>
      modify (λ w, set_buffers (alter (λ b, b ++ [x]) id (buffers w)) w)
  | DevNull => ret tt
  end.

Fixpoint stream_write_all (fd : out_fd) (s : stream) (l : list emitted)
  : M unit :=
  match l with
  | [] => ret tt
  | x :: rest => stream_write fd s x ;;; stream_write_all fd s rest
  end.

(** [print(x)] and a write to [sys.stderr]. *)
Definition print (x : emitted) : M unit :=
  λ w, stream_write Stdout (sys_stdout w) x w.

Definition eprint (x : emitted) : M unit :=
  λ w, stream_write Stderr (sys_stderr w) x w.

(** ** The output suppressor *)

Module WriteOnlyStringIO.

(** [WriteOnlyStringIO()]: a new, empty object. *)
Definition new : M nat :=
  λ w, (set_buffers (buffers w ++ [[]]) w, Ret (length (buffers w))).

Definition read (self : nat) : M string := raise (OSError_ 20).

Definition readline (self : nat) : M string := raise (OSError_ 23).

Definition readlines (self : nat) : M (list string) := raise (OSError_ 26).

Definition readable (self : nat) : M bool := ret false.

End WriteOnlyStringIO.

(** The real standard input: a read waits until input is there. *)
Definition tty_read : M string :=
  λ w, match stdin_pending w with
       | [] => (w, Hang)
       | _ => (set_stdin_pending [] w, Ret (join_lines (stdin_pending w)))
       end.

Definition tty_readline : M string :=
  λ w, match stdin_pending w with
       | [] => (w, Hang)
       | x :: rest => (set_stdin_pending rest w, Ret x)
       end.

Definition tty_readlines : M (list string) :=
  λ w, match stdin_pending w with
       | [] => (w, Hang)
       | l => (set_stdin_pending [] w, Ret l)
       end.

(** [sys.stdin.read()], [sys.stdin.readline()], [sys.stdin.readlines()] as
    the wrapped code issues them: dispatched on what [sys.stdin] is bound
    to at that moment. *)
Definition sys_stdin_read : M string :=
  λ w, match sys_stdin w with
       | Std => tty_read w
       | Buf id => WriteOnlyStringIO.read id w
       | DevNull => (w, Ret "")
       end.

Definition sys_stdin_readline : M string :=
  λ w, match sys_stdin w with
       | Std => tty_readline w
       | Buf id => WriteOnlyStringIO.readline id w
       | DevNull => (w, Ret "")
       end.

Definition sys_stdin_readlines : M (list string) :=
  λ w, match sys_stdin w with
       | Std => tty_readlines w
       | Buf id => WriteOnlyStringIO.readlines id w
       | DevNull => (w, Ret [])
       end.

Inductive std_channel := ChStdin | ChStdout | ChStderr.

Definition getattr_sys (ch : std_channel) (w : world) : stream :=
  match ch with
  | ChStdin => sys_stdin w
  | ChStdout => sys_stdout w
  | ChStderr => sys_stderr w
  end.

Definition setattr_sys (ch : std_channel) (s : stream) (w : world) : world :=
  match ch with
  | ChStdin => set_sys_stdin s w
  | ChStdout => set_sys_stdout s w
  | ChStderr => set_sys_stderr s w
  end.

(** [contextlib._RedirectStream]: [__enter__] saves the current binding and
    installs the new target, [__exit__] puts the saved binding back. *)
Definition RedirectStream {A} (ch : std_channel) (new_target : stream)
    (body : M A) : M A :=
  old_target <- get (getattr_sys ch) ;;
  modify (setattr_sys ch new_target) ;;;
  try_finally body (modify (setattr_sys ch old_target)).

Definition redirect_stdout {A} := @RedirectStream A ChStdout.
Definition redirect_stderr {A} := @RedirectStream A ChStderr.
Definition redirect_stdin {A} := @RedirectStream A ChStdin.

(** [with swallow_io(): body] *)
Definition swallow_io {A} (body : M A) : M A :=
  stream <- WriteOnlyStringIO.new ;;
  redirect_stdout (Buf stream)
    (redirect_stderr (Buf stream)
       (redirect_stdin (Buf stream) body)).

(** ** The working-directory sandbox *)

(** [with chdir(root): body] *)
Definition chdir {A} (root : string) (body : M A) : M A :=
  if String.eqb root "." then body
  else
    cwd0 <- os_getcwd 48 ;;
    os_chdir 49 root ;;;
    try_finally (try_except body (λ exc, raise exc)) (os_chdir 55 cwd0).

(** [with create_tempdir() as dirname: body dirname] *)
Definition create_tempdir {A} (body : string → M A) : M A :=
  TemporaryDirectory (λ dirname, chdir dirname (body dirname)).

(** ** The capability restrictor *)

(** [resource.setrlimit(name, (soft, hard))] *)
Definition setrlimit (name : string) (limits : Z * Z) : M unit :=
  modify (λ w, set_rlimits (<[name := limits]> (rlimits w)) w).

Fixpoint rebind_all_none (names : list string) : M unit :=
  match names with
  | [] => ret tt
  | n :: rest => rebind_none n ;;; rebind_all_none rest
  end.

Fixpoint block_all_modules (names : list string) : M unit :=
  match names with
  | [] => ret tt
  | n :: rest =>
      modify (λ w, set_blocked_modules ({[n]} ∪ blocked_modules w) w) ;;;
      block_all_modules rest
  end.

(** The attributes of [os] that [reliability_guard] rebinds, in order. *)
Definition guard_os_names : list string :=
  [ "os.kill"; "os.system"; "os.putenv"; "os.remove"; "os.removedirs";
    "os.rmdir"; "os.fchdir"; "os.setuid"; "os.fork"; "os.forkpty";
    "os.killpg"; "os.rename"; "os.renames"; "os.truncate"; "os.replace";
    "os.unlink"; "os.fchmod"; "os.fchown"; "os.chmod"; "os.chown";
    "os.chroot"; "os.lchflags"; "os.lchmod"; "os.lchown"; "os.getcwd";
    "os.chdir" ].

Definition guard_shutil_names : list string :=
  [ "shutil.rmtree"; "shutil.move"; "shutil.chown" ].

Definition guard_modules : list string :=
  [ "ipdb"; "joblib"; "resource"; "psutil"; "tkinter" ].

(** Every name the guard rebinds to [None]. *)
Definition guard_names : list string :=
  [ "builtins.exit"; "builtins.quit" ] ++ guard_os_names
  ++ guard_shutil_names ++ [ "subprocess.Popen"; "builtins.help" ].

Definition reliability_guard (maximum_memory_bytes : option Z) : M unit :=
  system <- get platform_system ;;
  match maximum_memory_bytes with
  | Some m =>
      if negb (String.eqb system "Windows") then
        import_module "resource" ;;;
        setrlimit "RLIMIT_AS" (m, m) ;;;
        setrlimit "RLIMIT_DATA" (m, m) ;;;
        if negb (String.eqb system "Darwin")
        then setrlimit "RLIMIT_STACK" (m, m)
        else ret tt
      else ret tt
  | None => ret tt
  end ;;;
  modify (set_faulthandler false) ;;;
  import_module "builtins" ;;;
  rebind_all_none [ "builtins.exit"; "builtins.quit" ] ;;;
  modify (λ w, set_environ (<["OMP_NUM_THREADS" := "1"]> (environ w)) w) ;;;
  rebind_all_none guard_os_names ;;;
  rebind_all_none guard_shutil_names ;;;
  import_module "subprocess" ;;;
  rebind_none "subprocess.Popen" ;;;
  rebind_none "builtins.help" ;;;
  import_module "sys" ;;;
  block_all_modules guard_modules.

(** ** The execution worker *)

(** [l[i]] with Python's negative indices; [what] names the sequence type
    in the error message. *)
Definition py_index {A} (what : string) (l : list A) (i : Z) : M A :=
  let n := Z.of_nat (length l) in
  let j := if i <? 0 then i + n else i in
  if (0 <=? j) && (j <? n) then
    match l !! Z.to_nat j with
    | Some x => ret x
    | None => raise (IndexError_ (what +:+ " index out of range"))
    end
  else raise (IndexError_ (what +:+ " index out of range")).

(** [result.append(s)] on the shared list. *)
Definition result_append (s : string) : M unit :=
  modify (λ w, set_channel (channel w ++ [s]) w).

(** ["failed: {} at line {}: {}".format(error_class, line_number, detail)] *)
Definition format_failed (error_class line_number detail : string) : string :=
  "failed: " +:+ error_class +:+ " at line " +:+ line_number +:+ ": "
  +:+ detail.

(** ["Offending line: {}".format(line)] *)
Definition format_offending (line : string) : string :=
  "Offending line: " +:+ line.

(** The line of the [exec(code)] call in [unsafe_execute]: the first entry
    of every traceback the handlers see. *)
Definition exec_call_line : positive := 129.

(** [traceback.extract_tb(tb)[-1][1]]: the line number of the last entry. *)
Definition tb_last_line (e : exn) : Z :=
  Z.pos (List.last (exn_tb e) exec_call_line).

(** [line_number - 1] where [line_number] may be [None]. *)
Definition minus_one (line_number : option Z) : M Z :=
  match line_number with
  | Some n => ret (n - 1)
  | None => raise TypeError_operand
  end.

Definition str_lineno (line_number : option Z) : string :=
  match line_number with
  | Some n => pretty n
  | None => "None"
  end.

(** [unsafe_execute(code, result, timeout)].  [exec_code] is what the
    interpreter does for [exec(code)]; [result] is the [channel] of the
    world.  [timeout] is not used by the function. *)
Definition unsafe_execute (code : string) (exec_code : M unit) (timeout : Z)
  : M unit :=
  try_except
    (exec_code ;;;
     result_append "passed")
    (λ e,
       match exn_kind e with
       | BSyntaxError =>
           let error_class := exn_class e in
           detail <- py_index "tuple" (exn_args e) 0 ;;
           let line_number := exn_lineno e in
           result_append
             (format_failed error_class (str_lineno line_number)
                            (py_str detail)) ;;;
           i <- minus_one line_number ;;
           line <- py_index "list" (split_lines code) i ;;
           result_append (format_offending line)
       | BException =>
           let error_class := exn_class e in
           let detail := exn_str e in
           let line_number := tb_last_line e in
           result_append
             (format_failed error_class (pretty line_number) detail) ;;;
           if line_number <=? Z.of_nat (length (split_lines code)) then
             line <- py_index "list" (split_lines code) (line_number - 1) ;;
             result_append (format_offending line)
           else ret tt
       | BSystemExit | BBaseException => raise e
       end).

(** ** The supervisor *)

(** What the bootstrap of a [multiprocessing.Process] writes to the child's
    [sys.stderr] when the target lets an exception escape: the text of a
    [SystemExit] code that is neither [None] nor an integer, a traceback for
    anything else. *)
Definition bootstrap_report (e : exn) : list emitted :=
  match exn_kind e with
  | BSystemExit =>
      match exn_args e with
      | [] | [PInt _] | [PNone] => []
      | [PStr s] => [Text (s +:+ nl)]
      | args => [TupleOf args]
      end
  | _ => [Text ("Process Process-1:" +:+ nl); TracebackOf e]
  end.

(** [p = Process(target=...); p.start(); timer ...; p.join(); timer.cancel()].
    The child starts from a copy of the parent's state with its standard
    input closed; it ends by returning, by an escaping exception, or by
    being terminated when the timer fires ([Hang]).  The terminal, the file
    system and the managed list are shared with the parent; everything else
    the child changed is lost with it. *)
Definition Process_run (target : M unit) : M unit :=
  λ parent,
    let child := set_sys_stdin DevNull parent in
    let '(child1, r) := target child in
    let child2 :=
      match r with
      | Raise e =>
          fst (stream_write_all Stderr (sys_stderr child1)
                                (bootstrap_report e) child1)
      | _ => child1
      end in
    (set_channel (channel child2)
       (set_console (console child2)
          (set_fs (fs child2) parent)),
     Ret tt).

(** [check_correctness(check_program, timeout)], with [exec_code] the
    behaviour of [exec(check_program)] within [timeout] seconds. *)
Definition check_correctness (check_program : string) (exec_code : M unit)
    (timeout : Z) : M bool :=
  modify (set_channel []) ;;;
  Process_run (unsafe_execute check_program exec_code timeout) ;;;
  result <- get channel ;;
  (if bool_decide (result = []) then result_append "timed out" else ret tt) ;;;
  result <- get channel ;;
  print (ReprOf result) ;;;
  first <- py_index "list" result 0 ;;
  ret (String.eqb first "passed").

(** ** Name resolution under [exec]

    A fragment of Python large enough to tell [exec(code)] called inside a
    function from the execution of [code] as a program of its own: function
    definitions without parameters, calls, assignments, assertions.  Its
    identifiers are [f0], [f1], ...: none of them is a builtin, a global of
    the harness module or a local of [unsafe_execute]. *)
Module MiniPy.

Inductive expr :=
| Num (n : Z)
| Var (x : nat)
| Call (f : nat).                 (* f() *)

Inductive stmt :=
| Def (f : nat) (body : expr)     (* def f():  /  return body *)
| Assign (x : nat) (e : expr)     (* x = e *)
| Assert (e : expr)               (* assert e *)
| Expr (e : expr).                (* e *)

Definition ident (x : nat) : string := "f" +:+ pretty x.

Definition render_expr (e : expr) : string :=
  match e with
  | Num n => pretty n
  | Var x => ident x
  | Call f => ident f +:+ "()"
  end.

Definition render_stmt (s : stmt) : list string :=
  match s with
  | Def f body =>
      [ "def " +:+ ident f +:+ "():"; "    return " +:+ render_expr body ]
  | Assign x e => [ ident x +:+ " = " +:+ render_expr e ]
  | Assert e => [ "assert " +:+ render_expr e ]
  | Expr e => [ render_expr e ]
  end.

(** The program text. *)
Definition render (prog : list stmt) : string :=
  join_lines (concat (map render_stmt prog)).

Inductive value :=
| VInt (n : Z)
| VFun (body : expr) (line : positive).
                                  (* a function and the line of its return *)

(** The two dictionaries code runs in.  [locals = None] says that the
    local dictionary is the global one, as for the top level of a module;
    under [exec(code)] inside a function they are different objects. *)
Record namespaces := mkNs {
  globals : gmap nat value;
  locals : option (gmap nat value)
}.

(** Top-level code binds names in the local dictionary. *)
Definition store_name (x : nat) (v : value) (ns : namespaces) : namespaces :=
  match locals ns with
  | None => mkNs (<[x := v]> (globals ns)) None
  | Some l => mkNs (globals ns) (Some (<[x := v]> l))
  end.

(** Top-level code reads the local dictionary, then the global one. *)
Definition load_name (x : nat) (ns : namespaces) : option value :=
  match locals ns with
  | None => globals ns !! x
  | Some l =>
      match l !! x with
      | Some v => Some v
      | None => globals ns !! x
      end
  end.

(** The body of a function reads the global dictionary of the code that
    defined it. *)
Definition load_global (x : nat) (ns : namespaces) : option value :=
  globals ns !! x.

Definition NameError (x : nat) (line : positive) : exn :=
  mkExn BException "NameError"
        [PStr ("name '" +:+ ident x +:+ "' is not defined")]
        ("name '" +:+ ident x +:+ "' is not defined") None [line].

Definition TypeError_int (line : positive) : exn :=
  mkExn BException "TypeError" [PStr "'int' object is not callable"]
        "'int' object is not callable" None [line].

Definition AssertionError (line : positive) : exn :=
  mkExn BException "AssertionError" [] "" None [line].

(** The traceback of an exception that passes through the frame running
    line [line] gets that line in front. *)
Definition through (line : positive) (e : exn) : exn :=
  mkExn (exn_kind e) (exn_class e) (exn_args e) (exn_str e) (exn_lineno e)
        (line :: exn_tb e).

Definition lookup_at (in_function : bool) (x : nat) (ns : namespaces)
  : option value :=
  if in_function then load_global x ns else load_name x ns.

(** Evaluation of the expression on line [line]; [None] when the nesting
    of calls exceeds [depth]. *)
Fixpoint eval (depth : nat) (in_function : bool) (ns : namespaces)
    (line : positive) (e : expr) : option (value + exn) :=
  match e with
  | Num n => Some (inl (VInt n))
  | Var x =>
      match lookup_at in_function x ns with
      | Some v => Some (inl v)
      | None => Some (inr (NameError x line))
      end
  | Call f =>
      match lookup_at in_function f ns with
      | None => Some (inr (NameError f line))
      | Some (VInt _) => Some (inr (TypeError_int line))
      | Some (VFun body l) =>
          match depth with
          | O => None
          | S depth' =>
              match eval depth' true ns l body with
              | Some (inr err) => Some (inr (through line err))
              | r => r
              end
          end
      end
  end.

(** The statements from line [line] on. *)
Fixpoint exec_stmts (depth : nat) (ns : namespaces) (line : positive)
    (prog : list stmt) : option (outcome unit) :=
  match prog with
  | [] => Some (Ret tt)
  | Def f body :: rest =>
      exec_stmts depth (store_name f (VFun body (line + 1)%positive) ns)
                 (line + 2)%positive rest
  | Assign x e :: rest =>
      match eval depth false ns line e with
      | None => None
      | Some (inr err) => Some (Raise err)
      | Some (inl v) => exec_stmts depth (store_name x v ns) (line + 1)%positive rest
      end
  | Assert e :: rest =>
      match eval depth false ns line e with
      | None => None
      | Some (inr err) => Some (Raise err)
      | Some (inl (VInt 0)) => Some (Raise (AssertionError line))
      | Some (inl _) => exec_stmts depth ns (line + 1)%positive rest
      end
  | Expr e :: rest =>
      match eval depth false ns line e with
      | None => None
      | Some (inr err) => Some (Raise err)
      | Some (inl _) => exec_stmts depth ns (line + 1)%positive rest
      end
  end.

(** The program run on its own: one fresh dictionary for both roles. *)
Definition run_standalone (depth : nat) (prog : list stmt)
  : option (outcome unit) :=
  exec_stmts depth (mkNs ∅ None) 1%positive prog.

(** [exec(code)] with no dictionaries given, called in a function: the
    globals are those of the function's module, the locals those of the
    function.  Restricted to the identifiers of the fragment both are
    empty. *)
Definition run_exec_in_function (depth : nat) (prog : list stmt)
  : option (outcome unit) :=
  exec_stmts depth (mkNs ∅ (Some ∅)) 1%positive prog.

(** The statement [exec(code)] of [unsafe_execute] for a program of the
    fragment. *)
Definition exec_code (depth : nat) (prog : list stmt) : M unit :=
  λ w, match run_exec_in_function depth prog with
       | Some r => (w, r)
       | None => (w, Hang)
       end.

End MiniPy.

(** ** Worlds and programs used in the examples *)

Definition w0 : world :=
  mkWorld "/home/user" {[ "/home/user"; "/tmp" ]} Std Std Std [ "secret" ] []
          [] ∅ ∅ ∅ ∅ true "Linux" [].

(** [print('hi')] *)
Definition prog_print : string := "print('hi')".
Definition exec_print : M unit := print (Text ("hi" +:+ nl)).

(** [exit()]: [SystemExit], unless [exit] has been rebound to [None]. *)
Definition prog_exit : string := "exit()".
Definition SystemExit_ : exn :=
  mkExn BSystemExit "SystemExit" [PNone] "None" None [1; 26]%positive.
Definition exec_exit : M unit := call "builtins.exit" 1 (raise SystemExit_).

(** [x = 10/0] *)
Definition prog_div : string := "x = 10/0".
Definition ZeroDivisionError_ : exn :=
  mkExn BException "ZeroDivisionError" [PStr "division by zero"]
        "division by zero" None [1%positive].
Definition exec_div : M unit := raise ZeroDivisionError_.

(** A one-line program whose inner [exec] meets a syntax error on the third
    line of the inner text:  exec('\n\n1 +') *)
Definition prog_inner_syntax : string := "exec('\n\n1 +')".
Definition SyntaxError_inner : exn :=
  mkExn BSyntaxError "SyntaxError" [PStr "invalid syntax"]
        "invalid syntax (<string>, line 3)" (Some 3) [1%positive].
Definition exec_inner_syntax : M unit := raise SyntaxError_inner.

(** A program that sleeps for five seconds, under a timeout of three: the
    worker is terminated while the program is still running. *)
Definition prog_sleep : string := "import time" +:+ nl +:+ "time.sleep(5)".
Definition exec_sleep : M unit := λ w, (w, Hang).

(** The nesting of calls the interpreter allows by default. *)
Definition recursion_limit : nat := 1000.

(** A function that calls a function defined after it. *)
Definition prog_two_defs : list MiniPy.stmt :=
  [ MiniPy.Def 0 (MiniPy.Call 1);
    MiniPy.Def 1 (MiniPy.Num 1);
    MiniPy.Assert (MiniPy.Call 0) ].

(** ** Notions used in the statements *)

(** The run of the worker from [w] is the run in which the program does
    what it does when started in [w1]. *)
Definition runs_program_from (code : string) (exec_code : M unit)
    (timeout : Z) (w w1 : world) : Prop :=
  unsafe_execute code exec_code timeout w
  = unsafe_execute code (λ _, exec_code w1) timeout w.

(** The restrictions of [reliability_guard] are in force. *)
Definition restricted (w : world) : Prop :=
  Forall (λ n, n ∈ disabled w) guard_names
  ∧ Forall (λ m, m ∈ blocked_modules w) guard_modules.

(** Two worlds that differ at most in the content of the result list. *)
Definition same_process_state (w1 w2 : world) : Prop :=
  set_channel [] w1 = set_channel [] w2.




(** The world in which the body of [with swallow_io()] starts: a new empty
    buffer, bound to the three channels. *)
Definition suppressed (w : world) : world :=
  let s := Buf (length (buffers w)) in
  set_sys_stdin s
    (set_sys_stderr s
       (set_sys_stdout s (set_buffers (buffers w ++ [[]]) w))).

(** [wb] with the three channels bound as they are in [w]. *)
Definition restore_streams (w wb : world) : world :=
  set_sys_stdout (sys_stdout w)
    (set_sys_stderr (sys_stderr w)
       (set_sys_stdin (sys_stdin w) wb)).


(** The outcome kinds of the specification. *)
Inductive ExecutionResult :=
| Passed
| Failed (message : string) (offendingLine : option string)
| TimedOut.

(** The result a content of the channel stands for: its first entry is the
    verdict, a second entry the offending line; no entry means that the
    worker reported nothing. *)
Definition produced_result (ch : list string) : ExecutionResult :=
  match ch with
  | [] => TimedOut
  | first :: rest =>
      if String.eqb first "passed" then Passed
      else if String.eqb first "timed out" then TimedOut
      else Failed first (head rest)
  end.

(** The supervisor's world after [p.join()], and the channel as it finds
    it there. *)
Definition joined_world (code : string) (exec_code : M unit)
    (timeout : Z) (w : world) : world :=
  fst ((modify (set_channel []) ;;;
        Process_run (unsafe_execute code exec_code timeout)) w).

Definition inspected_channel (code : string) (exec_code : M unit)
    (timeout : Z) (w : world) : list string :=
  channel (joined_world code exec_code timeout w).

(** The list the supervisor prints and reads its verdict from. *)
Definition final_result (inspected : list string) : list string :=
  match inspected with
  | [] => ["timed out"]
  | _ => inspected
  end.

(** [result[0] == "passed"] *)
Definition verdict_of (result : list string) : bool :=
  match result with
  | first :: _ => String.eqb first "passed"
  | [] => false
  end.

(** The world of the child process when the worker starts. *)
Definition child_world (w : world) : world :=
  set_sys_stdin DevNull (set_channel [] w).

(** The line number and the detail the worker reports for an exception it
    classifies. *)
Definition failure_report (e : exn) : option (Z * string) :=
  match exn_kind e with
  | BSyntaxError =>
      match exn_args e, exn_lineno e with
      | detail :: _, Some n => Some (n, py_str detail)
      | _, _ => None
      end
  | BException => Some (tb_last_line e, exn_str e)
  | BSystemExit | BBaseException => None
  end.

(** The entries the worker appends for a failure reported on line [n]. *)
Definition failure_entries (code : string) (e : exn) (n : Z) (detail : string)
  : list string :=
  format_failed (exn_class e) (pretty n) detail
  :: match split_lines code !! Z.to_nat (n - 1) with
     | Some line => [format_offending line]
     | None => []
     end.

(** What the worker appends to the channel after the program has ended:
    ["passed"] after a normal end; nothing when the worker is terminated or
    the exception leaves the worker unreported; else the failure entry,
    alone or followed by the offending line. *)
Inductive worker_entries : outcome unit → list string → Prop :=
| entries_passed : worker_entries (Ret tt) ["passed"]
| entries_terminated : worker_entries Hang []
| entries_none (e : exn) : worker_entries (Raise e) []
| entries_failed (e : exn) (n detail : string) :
    worker_entries (Raise e) [format_failed (exn_class e) n detail]
| entries_failed_line (e : exn) (n detail line : string) :
    worker_entries (Raise e)
      [format_failed (exn_class e) n detail; format_offending line].




(** The program leaves the result list alone. *)
Definition keeps_channel (exec_code : M unit) : Prop :=
  ∀ w, channel (fst (exec_code w)) = channel w.

(** ** The self-test driver and client code *)

(** [sys.stdin.readable()] *)
Definition sys_stdin_readable : M bool :=
  λ w, match sys_stdin w with
       | Std => (w, Ret true)
       | Buf id => WriteOnlyStringIO.readable id w
       | DevNull => (w, Ret true)
       end.

(** What wrapped code does with the three standard channels. *)
Inductive io_op :=
| WriteOut (x : emitted)          (* sys.stdout.write / print *)
| WriteErr (x : emitted)          (* sys.stderr.write *)
| Read                            (* sys.stdin.read() *)
| ReadLine                        (* sys.stdin.readline() / input() *)
| ReadLines                       (* sys.stdin.readlines() *)
| Readable.                       (* sys.stdin.readable() *)

Definition run_op (o : io_op) : M unit :=
  match o with
  | WriteOut x => print x
  | WriteErr x => eprint x
  | Read => _ <- sys_stdin_read ;; ret tt
  | ReadLine => _ <- sys_stdin_readline ;; ret tt
  | ReadLines => _ <- sys_stdin_readlines ;; ret tt
  | Readable => _ <- sys_stdin_readable ;; ret tt
  end.

(** The operations one after the other, up to the first that raises. *)
Fixpoint run_ops (ops : list io_op) : M unit :=
  match ops with
  | [] => ret tt
  | o :: rest => run_op o ;;; run_ops rest
  end.

(** What a sequence of operations has written before its first read. *)
Fixpoint absorbed (ops : list io_op) : list emitted :=
  match ops with
  | [] => []
  | WriteOut x :: rest | WriteErr x :: rest => x :: absorbed rest
  | Readable :: rest => absorbed rest
  | (Read | ReadLine | ReadLines) :: _ => []
  end.

(** The source line of the method the first read of a sequence calls. *)
Fixpoint first_read (ops : list io_op) : option positive :=
  match ops with
  | [] => None
  | Read :: _ => Some 20%positive
  | ReadLine :: _ => Some 23%positive
  | ReadLines :: _ => Some 26%positive
  | (WriteOut _ | WriteErr _ | Readable) :: rest => first_read rest
  end.

(** The loop of the driver, from test number [i] on:
    [for i, code in enumerate(test_codes, 1): ...].  Each test comes with the
    behaviour of its text under [exec]. *)
Fixpoint run_tests (i : Z) (tests : list (string * M unit)) : M unit :=
  match tests with
  | [] => ret tt
  | (code, exec_code) :: rest =>
      print (Text (nl +:+ "Running Test " +:+ pretty i +:+ ":" +:+ nl)) ;;;
      result <- check_correctness code exec_code 3 ;;
      print (Text ("Test " +:+ pretty i +:+ " "
                   +:+ (if result : bool then "passed" else "failed")
                   +:+ nl)) ;;;
      run_tests (i + 1) rest
  end.

(** The body of [if __name__ == "__main__":]. *)
Definition main (tests : list (string * M unit)) : M unit :=
  run_tests 1 tests ;;;
  print (Text (nl +:+ "All tests completed." +:+ nl)).

(** A function body of the fragment that reads no name. *)
Definition const_body (e : MiniPy.expr) : bool :=
  match e with
  | MiniPy.Num _ => true
  | _ => false
  end.

(** Every function a program defines has a body that reads no name. *)
Definition defs_const (prog : list MiniPy.stmt) : bool :=
  forallb (λ s, match s with
                | MiniPy.Def _ body => const_body body
                | _ => true
                end) prog.

(** Every function in a dictionary has a body that reads no name. *)
Definition ns_const (g : gmap nat MiniPy.value) : Prop :=
  ∀ x body line, g !! x = Some (MiniPy.VFun body line) →
                 const_body body = true.

(** The number of line feeds in a text. *)
Fixpoint count_newlines (s : string) : nat :=
  match s with
  | "" => O
  | String c s' =>
      (if Ascii.eqb c newline then 1 else 0)%nat + count_newlines s'
  end.

(** [result.append("passed")], then a loop that never ends. *)
Definition prog_forged : string :=
  "result.append('passed')" +:+ nl +:+ "while True: pass".
Definition exec_forged : M unit :=
  result_append "passed" ;;; (λ w, (w, Hang)).


(** A syntax error raised by the program with line number 0. *)
Definition prog_line_zero : string :=
  "x = 1" +:+ nl +:+ "raise SyntaxError('boom', ('f', 0, 0, ''))".
Definition SyntaxError_line_zero : exn :=
  mkExn BSyntaxError "SyntaxError" [PStr "boom"] "boom (f, line 0)" (Some 0)
        [2%positive].

(** The part of the process state that has to do with files and channels. *)
Definition io_part (w : world) :=
  (cwd w, fs w, sys_stdin w, sys_stdout w, sys_stderr w, stdin_pending w,
   console w, buffers w, channel w, platform_system w).



(** * Properties *)

(** ** Strings and paths *)

Lemma split_lines_nonempty (s : string) : split_lines s ≠ [].
Proof.
  induction s as [|c s IH]; simpl; [done|].
  destruct (Ascii.eqb c newline); [done|].
  destruct (split_lines s); done.
Qed.



Lemma under_refl (d : string) : under d d = true.
Proof. unfold under. by rewrite String.eqb_refl. Qed.


Lemma rmtree_keeps (d p : string) (f : gset string) :
  under d p = false → p ∈ f → p ∈ filter (λ q, under d q = false) f.
Proof. intros Hu Hin. by apply elem_of_filter. Qed.

(** ** The worker, case by case *)

Section worker_cases.
Context (code : string) (exec_code : M unit) (timeout : Z).
Context (w wp : world).

Lemma unsafe_execute_ret :
  exec_code w = (wp, Ret tt) →
  unsafe_execute code exec_code timeout w
  = (set_channel (channel wp ++ ["passed"]) wp, Ret tt).
Proof.
  intros H. unfold unsafe_execute, try_except, bind. by rewrite H.
Qed.

Lemma unsafe_execute_hang :
  exec_code w = (wp, Hang) →
  unsafe_execute code exec_code timeout w = (wp, Hang).
Proof.
  intros H. unfold unsafe_execute, try_except, bind. by rewrite H.
Qed.

Lemma unsafe_execute_raise (e : exn) :
  exec_code w = (wp, Raise e) →
  unsafe_execute code exec_code timeout w
  = unsafe_execute code (raise e) timeout wp.
Proof.
  intros H. unfold unsafe_execute, try_except, bind, raise. by rewrite H.
Qed.

Lemma unsafe_execute_uncaught (e : exn) :
  exec_code w = (wp, Raise e) →
  exn_kind e = BSystemExit ∨ exn_kind e = BBaseException →
  unsafe_execute code exec_code timeout w = (wp, Raise e).
Proof.
  intros H Hk. unfold unsafe_execute, try_except, bind. rewrite H.
  by destruct Hk as [-> | ->].
Qed.

End worker_cases.

(** [l[i]] for an index in range. *)
Lemma py_index_in_range {A} (what : string) (l : list A) (i : Z) (x : A)
    (w : world) :
  0 ≤ i → l !! Z.to_nat i = Some x →
  py_index what l i w = (w, Ret x).
Proof.
  intros Hi Hx. unfold py_index.
  assert (i < Z.of_nat (length l)).
  { apply lookup_lt_Some in Hx. lia. }
  rewrite (proj2 (Z.ltb_ge i 0)) by lia.
  rewrite (proj2 (Z.leb_le 0 i)) by lia.
  rewrite (proj2 (Z.ltb_lt i _)) by lia.
  simpl. by rewrite Hx.
Qed.


(** An exception matched by [except Exception] is always classified. *)
Lemma unsafe_execute_exception (code : string) (timeout : Z) (e : exn)
    (w : world) :
  exn_kind e = BException →
  unsafe_execute code (raise e) timeout w
  = (set_channel
       (channel w ++ failure_entries code e (tb_last_line e) (exn_str e)) w,
     Ret tt).
Proof.
  intros Hk. unfold unsafe_execute, try_except, failure_entries.
  unfold bind at 1. unfold raise at 1. cbv beta iota. rewrite Hk.
  unfold bind at 1. unfold result_append at 1, modify.
  assert (Hpos : 1 ≤ tb_last_line e) by (unfold tb_last_line; lia).
  destruct (Z.leb_spec (tb_last_line e) (Z.of_nat (length (split_lines code))))
    as [Hle | Hgt].
  - destruct (lookup_lt_is_Some_2 (split_lines code)
                (Z.to_nat (tb_last_line e - 1))) as [line Hline]; [lia|].
    rewrite Hline. unfold bind.
    rewrite (py_index_in_range _ _ _ line) by (done || lia).
    unfold result_append, modify. destruct w; simpl.
    by rewrite <- app_assoc.
  - rewrite lookup_ge_None_2 by lia.
    by destruct w.
Qed.


(** Whatever the program did, the worker itself changes nothing but the
    channel, to which it appends its entries. *)
Lemma unsafe_execute_frame (code : string) (exec_code : M unit) (timeout : Z)
    (w : world) :
  ∃ entries,
    worker_entries (snd (exec_code w)) entries
    ∧ fst (unsafe_execute code exec_code timeout w)
      = set_channel (channel (fst (exec_code w)) ++ entries)
                    (fst (exec_code w)).
Proof.
  assert (Hnil : ∀ v : world, v = set_channel (channel v ++ []) v).
  { intros v. rewrite app_nil_r. by destruct v. }
  destruct (exec_code w) as [wp [[]|e|]] eqn:Hexec.
  - rewrite (unsafe_execute_ret _ _ _ _ _ Hexec).
    exists ["passed"]. split; [constructor|done].
  - rewrite (unsafe_execute_raise _ _ _ _ _ _ Hexec). simpl.
    destruct (exn_kind e) eqn:Hk.
    + (* except SyntaxError *)
      unfold unsafe_execute, try_except.
      unfold bind at 1. unfold raise at 1. cbv beta iota. rewrite Hk.
      unfold bind at 1.
      destruct (py_index "tuple" (exn_args e) 0 wp) as [w1 [d| |]] eqn:Hd;
        unfold py_index, ret, raise in Hd; repeat case_match; simplify_eq;
        try (exists []; split; [constructor | apply Hnil]).
      unfold bind at 1. unfold result_append at 1, modify.
      unfold bind at 1.
      destruct (exn_lineno e) as [m|]; unfold minus_one, ret, raise.
      * unfold bind.
        destruct (py_index "list" (split_lines code) (m - 1) _)
          as [w2 [line| |]] eqn:Hl;
          unfold py_index, ret, raise in Hl; repeat case_match; simplify_eq.
        all: first
          [ eexists [_; _]; split; [constructor|];
            unfold result_append, modify; destruct w1; simpl;
            by rewrite <- app_assoc
          | eexists [_]; split; [constructor|]; by destruct w1 ].
      * eexists [_]. split; [constructor|]. by destruct w1.
    + (* except Exception *)
      rewrite unsafe_execute_exception by done.
      eexists. split; [|reflexivity].
      unfold failure_entries. case_match; constructor.
    + rewrite (unsafe_execute_uncaught _ (raise e) _ wp wp e) by auto.
      exists []. split; [constructor | apply Hnil].
    + rewrite (unsafe_execute_uncaught _ (raise e) _ wp wp e) by auto.
      exists []. split; [constructor | apply Hnil].
  - rewrite (unsafe_execute_hang _ _ _ _ _ Hexec).
    exists []. split; [constructor | apply Hnil].
Qed.

Lemma worker_entries_length (r : outcome unit) (entries : list string) :
  worker_entries r entries → (length entries ≤ 2)%nat.
Proof. destruct 1; simpl; lia. Qed.

(** Only a program that returned gets the verdict ["passed"]. *)
Lemma worker_entries_verdict (r : outcome unit) (entries : list string) :
  worker_entries r entries →
  verdict_of (final_result entries) = true ↔ r = Ret tt.
Proof. destruct 1; simpl; split; (done || discriminate). Qed.

(** ** Classification of failures *)



(** A syntax error reported for a line beyond the text: the failure entry
    is there, no offending line, and the worker ends with [IndexError]. *)
Example inner_syntax_error_run :
  unsafe_execute prog_inner_syntax exec_inner_syntax 3 w0
  = (set_channel ["failed: SyntaxError at line 3: invalid syntax"] w0,
     Raise (IndexError_ "list index out of range")).
Proof. reflexivity. Qed.


(** The supervisor always ends with a boolean: the verdict read from the
    first entry of the list it has printed. *)
Lemma check_correctness_run (code : string) (exec_code : M unit)
    (timeout : Z) (w : world) :
  let wj := joined_world code exec_code timeout w in
  let result := final_result (channel wj) in
  check_correctness code exec_code timeout w
  = (fst (print (ReprOf result) (set_channel result wj)),
     Ret (verdict_of result)).
Proof.
  intros wj result. unfold check_correctness.
  unfold bind at 1. unfold modify at 1.
  unfold bind at 1.
  assert (Hj : Process_run (unsafe_execute code exec_code timeout)
                 (set_channel [] w) = (wj, Ret tt)).
  { unfold wj, joined_world, bind, modify, Process_run.
    by destruct (unsafe_execute _ _ _ _) as [? [[]|?|]]. }
  rewrite Hj. unfold bind at 1. unfold get at 1.
  assert (Hfix : (if bool_decide (channel wj = [])
                  then result_append "timed out" else ret tt) wj
                 = (set_channel result wj, Ret tt)).
  { unfold result, final_result. case_bool_decide as Hch.
    - rewrite Hch. unfold result_append, modify. by rewrite Hch.
    - unfold ret. destruct wj as [? ? ? ? ? ? ? ? ? ? ? ? ? ? ch]; simpl in *.
      by destruct ch. }
  unfold bind at 1. rewrite Hfix.
  unfold bind at 1. unfold get at 1.
  replace (channel (set_channel result wj)) with result by by destruct wj.
  unfold bind at 1.
  assert (Hp : ∀ v, ∃ v', print (ReprOf result) v = (v', Ret tt)
                          ∧ channel v' = channel v).
  { intros v. unfold print, stream_write, modify, ret.
    destruct (sys_stdout v); eexists; (split; [reflexivity|]); by destruct v. }
  destruct (Hp (set_channel result wj)) as (v' & Hv & Hch).
  rewrite Hv. simpl. unfold bind.
  assert (Hne : result ≠ []).
  { unfold result, final_result. by destruct (channel wj). }
  destruct result as [|first rest] eqn:Hres; [done|].
  by rewrite (py_index_in_range "list" (first :: rest) 0 first).
Qed.



(** ** The scopes *)



(** The buffer of [swallow_io] is bound to the three channels while the
    body runs; when the body returns or raises, the bindings of [w] are put
    back, innermost first. *)
Lemma swallow_io_run {A} (body : M A) (w : world) :
  swallow_io body w
  = match body (suppressed w) with
    | (wb, Hang) => (wb, Hang)
    | (wb, r) => (restore_streams w wb, r)
    end.
Proof.
  unfold swallow_io, redirect_stdout, redirect_stderr, redirect_stdin,
    RedirectStream, WriteOnlyStringIO.new, suppressed, restore_streams.
  unfold bind, get, modify, try_finally. destruct w; simpl.
  by destruct (body _) as [wb [a|e|]].
Qed.




(** The suppressor at work: the program prints, then reads its input. *)
Example swallow_io_print_then_read :
  let r := swallow_io (print (Text "hi") ;;; sys_stdin_readline) w0 in
  snd r = Raise (OSError_ 23)
  ∧ console (fst r) = [] ∧ stdin_pending (fst r) = ["secret"]
  ∧ buffers (fst r) = [[Text "hi"]]
  ∧ sys_stdin (fst r) = Std ∧ sys_stdout (fst r) = Std
  ∧ sys_stderr (fst r) = Std.
Proof. vm_compute. by repeat split. Qed.



(** Why the sandbox needs its functions at the exit: when the body applies
    the guard, [os.chdir] is [None] by the time the [finally] block of
    [chdir] calls it; the exit raises [TypeError], the current directory
    stays the temporary one and the directory is not removed. *)
Example create_tempdir_after_guard :
  let r := create_tempdir (λ _, reliability_guard None) w0 in
  snd r = Raise (TypeError_not_callable stdlib_line)
  ∧ cwd (fst r) = "/tmp/tmp0" ∧ "/tmp/tmp0" ∈ fs (fst r).
Proof.
  intros r. split; [by vm_compute|]. split; [by vm_compute|].
  apply (bool_decide_unpack _). by vm_compute.
Qed.

(** ** What the capability restrictor does *)

Lemma import_module_ok (name : string) (w : world) :
  blocked_modules w = ∅ → import_module name w = (w, Ret tt).
Proof.
  intros Hb. unfold import_module. rewrite Hb.
  by rewrite bool_decide_false by apply not_elem_of_empty.
Qed.

Lemma rebind_all_none_run (names : list string) (w : world) :
  rebind_all_none names w
  = (set_disabled (list_to_set (reverse names) ∪ disabled w) w, Ret tt).
Proof.
  revert w. induction names as [|n names IH]; intros w.
  - simpl. unfold ret. destruct w; unfold set_disabled; simpl.
    change (reverse []) with (@nil string). simpl.
    by rewrite union_empty_l_L.
  - simpl. unfold bind, rebind_none, modify. rewrite IH.
    destruct w; unfold set_disabled; simpl. do 2 f_equal.
    rewrite reverse_cons, list_to_set_app_L. simpl.
    by rewrite union_empty_r_L, (assoc_L (∪)).
Qed.

Lemma block_all_modules_run (names : list string) (w : world) :
  block_all_modules names w
  = (set_blocked_modules (list_to_set (reverse names) ∪ blocked_modules w) w,
     Ret tt).
Proof.
  revert w. induction names as [|n names IH]; intros w.
  - simpl. unfold ret. destruct w; unfold set_blocked_modules; simpl.
    change (reverse []) with (@nil string). simpl.
    by rewrite union_empty_l_L.
  - simpl. unfold bind, modify. rewrite IH.
    destruct w; unfold set_blocked_modules; simpl. do 2 f_equal.
    rewrite reverse_cons, list_to_set_app_L. simpl.
    by rewrite union_empty_r_L, (assoc_L (∪)).
Qed.

(** Applied in a process that has blocked no module, the guard returns and
    its restrictions are in force. *)
Lemma reliability_guard_restricts (m : option Z) (w : world) :
  blocked_modules w = ∅ →
  ∃ w', reliability_guard m w = (w', Ret tt) ∧ restricted w'.
Proof.
  intros Hb. unfold reliability_guard.
  unfold bind at 1. unfold get at 1.
  set (limits := match m with Some _ => _ | None => _ end).
  assert (Hl : ∃ w1, limits w = (w1, Ret tt)
                     ∧ blocked_modules w1 = ∅ ∧ disabled w1 = disabled w).
  { unfold limits. destruct m as [n|]; [|by exists w].
    destruct (String.eqb (platform_system w) "Windows"); [by exists w|].
    simpl. unfold bind at 1. rewrite import_module_ok by done.
    unfold bind, setrlimit, modify.
    destruct (String.eqb (platform_system w) "Darwin"); simpl;
      eexists; (split; [reflexivity|]); by destruct w. }
  destruct Hl as (w1 & Hlim & Hb1 & Hd1).
  unfold bind at 1. rewrite Hlim.
  unfold bind at 1. unfold modify at 1.
  set (w2 := set_faulthandler false w1).
  assert (Hb2 : blocked_modules w2 = ∅) by (by destruct w1).
  unfold bind at 1. rewrite import_module_ok by done.
  unfold bind at 1. rewrite rebind_all_none_run.
  unfold bind at 1. unfold modify at 1.
  unfold bind at 1. rewrite rebind_all_none_run.
  unfold bind at 1. rewrite rebind_all_none_run.
  unfold bind at 1. rewrite import_module_ok by (by destruct w1).
  unfold bind at 1. unfold rebind_none at 1, modify at 1.
  unfold bind at 1. unfold rebind_none at 1, modify at 1.
  unfold bind at 1. rewrite import_module_ok by (by destruct w1).
  rewrite block_all_modules_run.
  eexists. split; [reflexivity|].
  split.
  - destruct w1; simpl. unfold guard_names, guard_os_names,
      guard_shutil_names. simpl. repeat constructor; set_solver.
  - destruct w1; simpl. unfold guard_modules. simpl.
    repeat constructor; set_solver.
Qed.

(** ** What the worker runs the program in *)

(** C1, as stated, fails: were the guard applied before the program runs,
    [exit()] would find [exit] rebound to [None] and be classified as a
    failure; the worker lets [SystemExit] through instead. *)
Lemma exit_runs_unrestricted :
  ¬ ∃ w1, restricted w1 ∧ runs_program_from prog_exit exec_exit 3 w0 w1.
Proof.
  intros (w1 & [Hdis _] & Hrun). unfold runs_program_from in Hrun.
  assert (Hexit : "builtins.exit" ∈ disabled w1).
  { rewrite Forall_forall in Hdis. apply Hdis. set_solver. }
  assert (Hlhs : unsafe_execute prog_exit exec_exit 3 w0
                 = (w0, Raise SystemExit_)) by reflexivity.
  rewrite Hlhs in Hrun.
  assert (Hbeh : exec_exit w1 = (w1, Raise (TypeError_not_callable 1))).
  { unfold exec_exit, call. by rewrite bool_decide_true. }
  rewrite (unsafe_execute_raise _ (λ _, exec_exit w1) _ w0 w1 _ Hbeh) in Hrun.
  rewrite unsafe_execute_exception in Hrun by done.
  discriminate Hrun.
Qed.

(** The worker changes nothing but the channel: with the channel set
    aside, its final world is the one the program left. *)
Lemma unsafe_execute_same_process_state (code : string) (exec_code : M unit)
    (timeout : Z) (w : world) :
  same_process_state (fst (unsafe_execute code exec_code timeout w))
                     (fst (exec_code w)).
Proof.
  destruct (unsafe_execute_frame code exec_code timeout w) as (l & _ & ->).
  unfold same_process_state. by destruct (exec_code w).1.
Qed.

(** The world the program is started in is determined by the runs of the
    worker. *)
Lemma runs_program_from_unique (code : string) (timeout : Z) (w w1 : world) :
  (∀ exec_code, runs_program_from code exec_code timeout w w1) → w1 = w.
Proof.
  intros Hall. specialize (Hall (λ v, (v, Ret tt))).
  unfold runs_program_from in Hall.
  rewrite (unsafe_execute_ret _ (λ v, (v, Ret tt)) _ w w eq_refl) in Hall.
  rewrite (unsafe_execute_ret _ (λ _, (w1, Ret tt)) _ w w1 eq_refl) in Hall.
  apply (f_equal fst) in Hall. simpl in Hall.
  destruct w, w1; unfold set_channel in Hall; simpl in Hall.
  injection Hall as -> -> -> -> -> -> -> -> -> -> -> -> -> -> Hch.
  apply app_inv_tail in Hch. by rewrite Hch.
Qed.

(** C1, amended: [unsafe_execute] does not apply [reliability_guard]: the
    program is started in exactly the process state the worker was started
    in, and apart from the channel the worker leaves the process state as
    the program left it. *)
Theorem worker_applies_no_guard (code : string) (timeout : Z) (w : world) :
  (∀ exec_code, runs_program_from code exec_code timeout w w)
  ∧ (∀ w1, (∀ exec_code, runs_program_from code exec_code timeout w w1)
           ↔ w1 = w)
  ∧ (∀ exec_code,
       same_process_state (fst (unsafe_execute code exec_code timeout w))
                          (fst (exec_code w))
       ∧ disabled (fst (unsafe_execute code exec_code timeout w))
         = disabled (fst (exec_code w))).
Proof.
  assert (Hself : ∀ exec_code, runs_program_from code exec_code timeout w w).
  { intros exec_code. unfold runs_program_from, unsafe_execute, try_except,
      bind. reflexivity. }
  split; [exact Hself|]. split.
  - intros w1. split; [apply runs_program_from_unique | by intros ->].
  - intros exec_code.
    pose proof (unsafe_execute_same_process_state code exec_code timeout w)
      as Hsame.
    split; [exact Hsame|].
    unfold same_process_state in Hsame.
    apply (f_equal disabled) in Hsame.
    by destruct (unsafe_execute _ _ _ _).1, (exec_code w).1.
Qed.





(** ** What the supervisor sees and says *)

Lemma stream_write_all_run (fd : out_fd) (s : stream) (l : list emitted)
    (w : world) :
  ∃ w', stream_write_all fd s l w = (w', Ret tt)
        ∧ channel w' = channel w ∧ fs w' = fs w
        ∧ console w'
          = console w ++ match s with
                         | Std => map (λ x, (fd, x)) l
                         | _ => []
                         end.
Proof.
  revert w. induction l as [|x l IH]; intros w.
  - exists w. simpl. unfold ret. by destruct s; simpl; rewrite app_nil_r.
  - simpl. unfold bind.
    assert (Hw : ∃ w1, stream_write fd s x w = (w1, Ret tt)
                       ∧ channel w1 = channel w ∧ fs w1 = fs w
                       ∧ console w1
                         = console w ++ match s with
                                        | Std => [(fd, x)]
                                        | _ => []
                                        end).
    { unfold stream_write, modify, ret.
      destruct s; eexists; (split; [reflexivity|]); destruct w; simpl;
        by rewrite ?app_nil_r. }
    destruct Hw as (w1 & -> & Hch & Hfs & Hcon).
    destruct (IH w1) as (w' & -> & Hch' & Hfs' & Hcon').
    exists w'. split; [done|].
    rewrite Hch', Hfs', Hcon', Hch, Hfs, Hcon.
    repeat split. destruct s; by rewrite <- ?app_assoc, ?app_nil_r.
Qed.

(** What the supervisor finds after the join: the channel as the worker
    left it, and on the console what was there when the program ended, then
    the report of an exception that escaped the worker. *)
Lemma joined_world_run (code : string) (exec_code : M unit) (timeout : Z)
    (w : world) :
  let run := unsafe_execute code exec_code timeout (child_world w) in
  let wj := joined_world code exec_code timeout w in
  channel wj = channel (fst run)
  ∧ (∃ report, console wj = console (fst run) ++ report
               ∧ Forall (λ x, x.1 = Stderr) report
               ∧ (report ≠ [] → ∃ e, snd run = Raise e))
  ∧ cwd wj = cwd w ∧ sys_stdin wj = sys_stdin w
  ∧ sys_stdout wj = sys_stdout w ∧ sys_stderr wj = sys_stderr w
  ∧ disabled wj = disabled w ∧ buffers wj = buffers w.
Proof.
  intros run wj. unfold wj, joined_world, bind, modify, Process_run.
  replace (set_sys_stdin DevNull (set_channel [] w)) with (child_world w)
    by by destruct w.
  fold run. destruct run as [child1 r] eqn:Hrun. simpl.
  assert (Hrep : ∀ e, ∃ child2,
             stream_write_all Stderr (sys_stderr child1)
               (bootstrap_report e) child1 = (child2, Ret tt)
             ∧ channel child2 = channel child1
             ∧ ∃ report, console child2 = console child1 ++ report
                         ∧ Forall (λ x, x.1 = Stderr) report).
  { intros e.
    destruct (stream_write_all_run Stderr (sys_stderr child1)
                (bootstrap_report e) child1) as (c2 & Hw & Hch & _ & Hcon).
    exists c2. repeat split; [done..|].
    eexists. split; [exact Hcon|].
    destruct (sys_stderr child1); [|done..].
    apply Forall_forall. by intros x [y [-> _]]%list_elem_of_fmap. }
  destruct r as [[]|e|].
  - destruct w; simpl. repeat split; try done.
    exists []. rewrite app_nil_r. by repeat split.
  - destruct (Hrep e) as (c2 & -> & Hch & report & Hcon & Hall).
    destruct w; simpl. repeat split; try done.
    exists report. repeat split; [done..|]. eauto.
  - destruct w; simpl. repeat split; try done.
    exists []. rewrite app_nil_r. by repeat split.
Qed.



Lemma inspected_channel_run (code : string) (exec_code : M unit)
    (timeout : Z) (w : world) :
  inspected_channel code exec_code timeout w
  = channel (fst (unsafe_execute code exec_code timeout (child_world w))).
Proof.
  unfold inspected_channel.
  by destruct (joined_world_run code exec_code timeout w) as (-> & _).
Qed.

Lemma check_correctness_channel (code : string) (exec_code : M unit)
    (timeout : Z) (w : world) :
  channel (fst (check_correctness code exec_code timeout w))
  = final_result (inspected_channel code exec_code timeout w).
Proof.
  rewrite check_correctness_run. simpl. unfold inspected_channel.
  set (wj := joined_world code exec_code timeout w).
  unfold print, stream_write, modify, ret.
  by destruct (sys_stdout _); destruct wj.
Qed.

(** C4, as stated, fails: after a failure the channel holds two entries,
    the verdict and the offending line. *)
Lemma failure_leaves_two_entries :
  ¬ (length (inspected_channel prog_div exec_div 3 w0) ≤ 1)%nat.
Proof. vm_compute. lia. Qed.

(** The channel the supervisor inspects, for a program that leaves the
    channel alone: exactly what the worker appended. *)
Lemma inspected_channel_entries (code : string) (exec_code : M unit)
    (timeout : Z) (w : world) :
  keeps_channel exec_code →
  worker_entries (snd (exec_code (child_world w)))
                 (inspected_channel code exec_code timeout w).
Proof.
  intros Hkeep. rewrite inspected_channel_run.
  destruct (unsafe_execute_frame code exec_code timeout (child_world w))
    as (entries & Hent & ->).
  replace (channel (set_channel _ _)) with
    (channel (fst (exec_code (child_world w))) ++ entries)
    by by destruct (exec_code _).1.
  rewrite Hkeep. replace (channel (child_world w)) with (@nil string)
    by by destruct w.
  done.
Qed.

(** For a program that leaves the channel alone the answer is [True]
    exactly when the program ran to its end, without an exception and
    before the timer fired. *)
Lemma verdict_true_iff_program_returns (code : string) (exec_code : M unit)
    (timeout : Z) (w : world) :
  keeps_channel exec_code →
  snd (check_correctness code exec_code timeout w) = Ret true
  ↔ snd (exec_code (child_world w)) = Ret tt.
Proof.
  intros Hkeep. rewrite check_correctness_run. simpl.
  fold (inspected_channel code exec_code timeout w).
  rewrite <- (worker_entries_verdict _ _
                (inspected_channel_entries code exec_code timeout w Hkeep)).
  split; [by intros [= ->] | by intros ->].
Qed.

(** C4, amended: when the program itself does not write to the channel, the
    supervisor finds in it what the worker appended, at most two entries:
    none, the verdict alone, or the failure entry followed by the offending
    line; when it finds none, it enters ["timed out"] and answers
    [False]. *)
Theorem channel_holds_at_most_two (code : string) (exec_code : M unit)
    (timeout : Z) (w : world) :
  keeps_channel exec_code →
  let inspected := inspected_channel code exec_code timeout w in
  worker_entries (snd (exec_code (child_world w))) inspected
  ∧ (length inspected ≤ 2)%nat
  ∧ (inspected = [] →
     produced_result inspected = TimedOut
     ∧ ∃ w', check_correctness code exec_code timeout w = (w', Ret false)
             ∧ channel w' = ["timed out"]).
Proof.
  intros Hkeep inspected.
  pose proof (inspected_channel_entries code exec_code timeout w Hkeep)
    as Hent.
  split; [exact Hent|]. split; [by eapply worker_entries_length|].
  intros Hempty. split; [by rewrite Hempty|].
  exists (fst (check_correctness code exec_code timeout w)). split.
  - rewrite check_correctness_run. simpl.
    fold (inspected_channel code exec_code timeout w).
    fold inspected. by rewrite Hempty.
  - rewrite check_correctness_channel. fold inspected. by rewrite Hempty.
Qed.

Lemma channel_holds_at_most_two_witness :
  keeps_channel exec_div
  ∧ inspected_channel prog_div exec_div 3 w0
    = [ "failed: ZeroDivisionError at line 1: division by zero";
        "Offending line: x = 10/0" ]
  ∧ (length (inspected_channel prog_div exec_div 3 w0) ≤ 2)%nat.
Proof.
  assert (Hkeep : keeps_channel exec_div) by (intros v; reflexivity).
  split; [exact Hkeep|]. split; [reflexivity|].
  exact (proj1 (proj2
           (channel_holds_at_most_two prog_div exec_div 3 w0 Hkeep))).
Defined.

(** The verdict reads the produced result off the channel. *)
Lemma verdict_of_final_result (inspected : list string) :
  verdict_of (final_result inspected)
  = match produced_result inspected with
    | Passed => true
    | _ => false
    end.
Proof.
  destruct inspected as [|first rest]; [done|].
  unfold final_result, verdict_of, produced_result.
  destruct (String.eqb first "passed"); [done|].
  by destruct (String.eqb first "timed out").
Qed.

(** C5: [check_correctness] returns [True] exactly when the result
    produced on the channel is [Passed]; it returns [False] for every
    [Failed] result and for [TimedOut]. *)
Theorem check_correctness_true_iff_passed (code : string)
    (exec_code : M unit) (timeout : Z) (w : world) :
  let produced :=
    produced_result (inspected_channel code exec_code timeout w) in
  ∃ w' verdict,
    check_correctness code exec_code timeout w = (w', Ret verdict)
    ∧ (verdict = true ↔ produced = Passed)
    ∧ (∀ message line, produced = Failed message line → verdict = false)
    ∧ (produced = TimedOut → verdict = false).
Proof.
  intros produced. rewrite check_correctness_run.
  eexists _, _. split; [reflexivity|].
  fold (inspected_channel code exec_code timeout w).
  rewrite verdict_of_final_result. fold produced.
  destruct produced; repeat split; done.
Qed.

(** The verdicts of the four sample programs. *)
Example check_correctness_samples :
  snd (check_correctness prog_print exec_print 3 w0) = Ret true
  ∧ snd (check_correctness prog_div exec_div 3 w0) = Ret false
  ∧ snd (check_correctness prog_exit exec_exit 3 w0) = Ret false
  ∧ snd (check_correctness prog_sleep exec_sleep 3 w0) = Ret false.
Proof. by vm_compute. Qed.

(** ** Name resolution *)

(** C10: [exec(code)] in [unsafe_execute] runs the text with the globals of
    the harness module and the locals of the function.  The program

      def f0():
          return f1()
      def f1():
          return 1
      assert f0()

    passes when run on its own; under [unsafe_execute] the call of [f1]
    inside [f0] raises [NameError], and the program is classified as
    failed. *)
Theorem exec_in_function_loses_sibling_definitions :
  ∃ prog e,
    MiniPy.render prog
    = join_lines [ "def f0():"; "    return f1()";
                   "def f1():"; "    return 1"; "assert f0()" ]
    ∧ MiniPy.run_standalone recursion_limit prog = Some (Ret tt)
    ∧ MiniPy.run_exec_in_function recursion_limit prog = Some (Raise e)
    ∧ exn_class e = "NameError"
    ∧ ∀ timeout w,
        unsafe_execute (MiniPy.render prog)
                       (MiniPy.exec_code recursion_limit prog) timeout w
        = (set_channel
             (channel w
              ++ [ "failed: NameError at line 2: name 'f1' is not defined";
                   "Offending line:     return f1()" ]) w,
           Ret tt).
Proof.
  exists prog_two_defs, (MiniPy.through 5 (MiniPy.NameError 1 2)).
  split; [reflexivity|]. split; [reflexivity|]. split; [reflexivity|].
  split; [reflexivity|]. intros timeout w.
  rewrite (unsafe_execute_raise _ _ _ w w
             (MiniPy.through 5 (MiniPy.NameError 1 2))) by reflexivity.
  by rewrite unsafe_execute_exception.
Qed.

(** * Further properties *)

(** ** The capability restrictor, in full *)









(** X2: whether it returns or raises, [reliability_guard] leaves the
    current directory, the file system, the bindings of the three standard
    channels, the pending input, the console, the buffers and the result
    list as they are. *)
Theorem reliability_guard_keeps_io (m : option Z) (w : world) :
  io_part (fst (reliability_guard m w)) = io_part w.
Proof.
  assert (Hblk : ∀ names v,
            io_part (fst (block_all_modules names v)) = io_part v).
  { intros names v. rewrite block_all_modules_run. by destruct v. }
  assert (Himp : ∀ name v, ∃ r, import_module name v = (v, r)).
  { intros name v. unfold import_module. case_bool_decide; eauto. }
  unfold reliability_guard.
  unfold bind at 1. unfold get at 1.
  set (limits := match m with Some _ => _ | None => _ end).
  assert (Hl : ∃ w1 r, limits w = (w1, r) ∧ io_part w1 = io_part w).
  { unfold limits. destruct m as [n|]; [|by exists w, (Ret tt)].
    destruct (String.eqb (platform_system w) "Windows");
      [by exists w, (Ret tt)|].
    simpl. unfold bind at 1.
    destruct (Himp "resource" w) as [[[]|e|] ->]; [|eauto..].
    unfold bind, setrlimit, modify.
    destruct (String.eqb (platform_system w) "Darwin");
      eexists _, _; (split; [reflexivity|]); by destruct w. }
  destruct Hl as (w1 & r & Hlim & H1). unfold bind at 1. rewrite Hlim.
  destruct r as [[]|e|]; [|done..].
  unfold bind at 1. unfold modify at 1.
  set (w2 := set_faulthandler false w1).
  assert (H2 : io_part w2 = io_part w) by (rewrite <- H1; by destruct w1).
  unfold bind at 1.
  destruct (Himp "builtins" w2) as [[[]|e|] ->]; [|done..].
  unfold bind at 1. rewrite rebind_all_none_run.
  unfold bind at 1. unfold modify at 1.
  unfold bind at 1. rewrite rebind_all_none_run.
  unfold bind at 1. rewrite rebind_all_none_run.
  unfold bind at 1.
  match goal with |- context [import_module "subprocess" ?v] =>
    set (w3 := v) end.
  assert (H3 : io_part w3 = io_part w)
    by (rewrite <- H2; unfold w3; by destruct w2).
  destruct (Himp "subprocess" w3) as [[[]|e|] ->]; [|done..].
  unfold bind at 1. unfold rebind_none at 1, modify at 1.
  unfold bind at 1. unfold rebind_none at 1, modify at 1.
  unfold bind at 1.
  match goal with |- context [import_module "sys" ?v] =>
    set (w4 := v) end.
  assert (H4 : io_part w4 = io_part w)
    by (rewrite <- H3; unfold w4; by destruct w3).
  destruct (Himp "sys" w4) as [[[]|e|] ->]; [|done..].
  by rewrite Hblk.
Qed.








(** ** The directory scope on its own *)



(** X7: once [os.getcwd] or [os.chdir] has been rebound to [None],
    [chdir(root)] for a root other than "." raises [TypeError] before the
    body is run and changes nothing; [chdir(".")] calls neither and runs
    the body all the same. *)
Theorem chdir_fails_closed (A : Type) (root : string) (body : M A)
    (w : world) :
  "os.getcwd" ∈ disabled w ∨ "os.chdir" ∈ disabled w →
  (root ≠ "." →
   ∃ line, chdir root body w = (w, Raise (TypeError_not_callable line)))
  ∧ chdir "." body w = body w.
Proof.
  intros Hdis. split; [|done].
  intros Hroot. unfold chdir.
  destruct (String.eqb_spec root "."); [done|].
  unfold bind at 1. unfold os_getcwd, call at 1, get.
  destruct (decide ("os.getcwd" ∈ disabled w)) as [Hg|Hg].
  - rewrite bool_decide_true by done. eauto.
  - rewrite bool_decide_false by done.
    destruct Hdis as [?|Hc]; [done|].
    unfold bind at 1. unfold os_chdir at 1, call at 1.
    rewrite bool_decide_true by done. eauto.
Qed.

Lemma chdir_fails_closed_witness :
  let w := fst (reliability_guard None w0) in
  ("os.getcwd" ∈ disabled w ∨ "os.chdir" ∈ disabled w)
  ∧ snd (chdir "/tmp" exec_print w) = Raise (TypeError_not_callable 48)
  ∧ console (fst (chdir "/tmp" exec_print w)) = [].
Proof.
  intros w.
  assert (Hdis : "os.getcwd" ∈ disabled w ∨ "os.chdir" ∈ disabled w).
  { left. apply (bool_decide_unpack _). by vm_compute. }
  split; [exact Hdis|].
  destruct (chdir_fails_closed unit "/tmp" exec_print w Hdis) as [Hfail _].
  destruct (Hfail ltac:(discriminate)) as [line Hrun].
  rewrite Hrun. split; [|by vm_compute].
  apply (f_equal snd) in Hrun. vm_compute in Hrun.
  injection Hrun as <-. reflexivity.
Defined.

(** ** The output suppressor and the code it wraps *)

Lemma set_buffers_alter_nil (id : nat) (w : world) :
  set_buffers (alter (λ b, b ++ []) id (buffers w)) w = w.
Proof.
  destruct w; unfold set_buffers; simpl. f_equal.
  apply list_alter_id. intros b. apply app_nil_r.
Qed.

Lemma alter_append_twice (id : nat) (x : emitted) (xs : list emitted)
    (l : list (list emitted)) :
  alter (λ b, b ++ xs) id (alter (λ b, b ++ [x]) id l)
  = alter (λ b, b ++ x :: xs) id l.
Proof.
  rewrite list_alter_alter_eq.
  apply list_alter_ext; [|done]. intros b _. simpl.
  by rewrite <- app_assoc.
Qed.

Lemma run_ops_suppressed (id : nat) (ops : list io_op) (w : world) :
  sys_stdin w = Buf id → sys_stdout w = Buf id → sys_stderr w = Buf id →
  run_ops ops w
  = (set_buffers (alter (λ b, b ++ absorbed ops) id (buffers w)) w,
     match first_read ops with
     | Some line => Raise (OSError_ line)
     | None => Ret tt
     end).
Proof.
  revert w. induction ops as [|o ops IH]; intros w Hin Hout Herr.
  - simpl. unfold ret. by rewrite set_buffers_alter_nil.
  - destruct o; simpl; unfold bind.
    + unfold print. rewrite Hout. unfold stream_write, modify.
      rewrite IH by (by destruct w).
      destruct w; unfold set_buffers; simpl.
      by rewrite alter_append_twice.
    + unfold eprint. rewrite Herr. unfold stream_write, modify.
      rewrite IH by (by destruct w).
      destruct w; unfold set_buffers; simpl.
      by rewrite alter_append_twice.
    + unfold sys_stdin_read. rewrite Hin. simpl.
      by rewrite set_buffers_alter_nil.
    + unfold sys_stdin_readline. rewrite Hin. simpl.
      by rewrite set_buffers_alter_nil.
    + unfold sys_stdin_readlines. rewrite Hin. simpl.
      by rewrite set_buffers_alter_nil.
    + unfold sys_stdin_readable. rewrite Hin. simpl. unfold ret.
      by rewrite IH.
Qed.

(** X8: whatever wrapped code writes to the standard output and error and
    however it tries to read the standard input while [swallow_io] is
    active, nothing reaches the console and nothing of the pending input is
    consumed; the writes made before the first read are, in order, the
    content of the new buffer; the first read raises [OSError], and without
    a read the scope returns; afterwards the three channels are bound as
    before. *)
Theorem swallow_io_absorbs (ops : list io_op) (w : world) :
  let r := swallow_io (run_ops ops) w in
  console (fst r) = console w
  ∧ stdin_pending (fst r) = stdin_pending w
  ∧ buffers (fst r) = buffers w ++ [absorbed ops]
  ∧ snd r = match first_read ops with
            | Some line => Raise (OSError_ line)
            | None => Ret tt
            end
  ∧ sys_stdin (fst r) = sys_stdin w ∧ sys_stdout (fst r) = sys_stdout w
  ∧ sys_stderr (fst r) = sys_stderr w.
Proof.
  intros r. unfold r. rewrite swallow_io_run.
  rewrite (run_ops_suppressed (length (buffers w)) ops (suppressed w))
    by (by destruct w).
  assert (Hbuf : alter (λ b, b ++ absorbed ops) (length (buffers w))
                   (buffers (suppressed w))
                 = buffers w ++ [absorbed ops]).
  { replace (buffers (suppressed w)) with (buffers w ++ [[]])
      by (by destruct w).
    rewrite alter_app_r_alt by done.
    by rewrite Nat.sub_diag. }
  rewrite Hbuf. destruct (first_read ops); by destruct w.
Qed.

(** The suppressor leaves the pending input for whoever reads after the
    scope. *)
Example swallow_io_absorbs_sample :
  let r := swallow_io
             (run_ops [WriteOut (Text "a"); Readable; WriteErr (Text "b");
                       ReadLine; WriteOut (Text "c")]) w0 in
  snd r = Raise (OSError_ 23)
  ∧ buffers (fst r) = [[Text "a"; Text "b"]]
  ∧ console (fst r) = [] ∧ stdin_pending (fst r) = ["secret"].
Proof. by vm_compute. Qed.

(** ** The verdict and the first entry of the list *)

(** X9: [exec(code)] runs with [result] in scope, and the supervisor reads
    its answer from the first entry of the list: when the program has
    itself put an entry into the list, that entry decides the answer,
    whether the program afterwards returns, raises or is terminated. *)
Theorem first_entry_decides_verdict (code : string) (exec_code : M unit)
    (timeout : Z) (w : world) (first : string) (rest : list string) :
  channel (fst (exec_code (child_world w))) = first :: rest →
  snd (check_correctness code exec_code timeout w)
  = Ret (String.eqb first "passed").
Proof.
  intros Hch. rewrite check_correctness_run. simpl.
  fold (inspected_channel code exec_code timeout w).
  rewrite inspected_channel_run.
  destruct (unsafe_execute_frame code exec_code timeout (child_world w))
    as (entries & _ & ->).
  replace (channel (set_channel _ _)) with
    (channel (fst (exec_code (child_world w))) ++ entries)
    by by destruct (exec_code _).1.
  by rewrite Hch.
Qed.

Lemma first_entry_decides_verdict_witness :
  channel (fst (exec_forged (child_world w0))) = ["passed"]
  ∧ snd (exec_forged (child_world w0)) = Hang
  ∧ snd (check_correctness prog_forged exec_forged 3 w0) = Ret true.
Proof.
  split; [reflexivity|]. split; [reflexivity|].
  exact (first_entry_decides_verdict prog_forged exec_forged 3 w0
           "passed" [] eq_refl).
Defined.

(** ** The handler for syntax errors *)

(** [l[i]] for a negative index counts from the end. *)
Lemma py_index_from_end {A} (what : string) (l : list A) (i : Z) (x : A)
    (w : world) :
  - Z.of_nat (length l) ≤ i < 0 →
  l !! Z.to_nat (i + Z.of_nat (length l)) = Some x →
  py_index what l i w = (w, Ret x).
Proof.
  intros Hi Hx. unfold py_index.
  rewrite (proj2 (Z.ltb_lt i 0)) by lia.
  rewrite (proj2 (Z.leb_le 0 _)) by lia.
  rewrite (proj2 (Z.ltb_lt _ _)) by lia.
  simpl. by rewrite Hx.
Qed.


(** The handler up to the look-up of the offending line. *)
Lemma syntax_handler_run (code : string) (timeout : Z) (e : exn)
    (d : pyval) (args : list pyval) (n : Z) (w : world) :
  exn_kind e = BSyntaxError →
  exn_args e = d :: args →
  exn_lineno e = Some n →
  unsafe_execute code (raise e) timeout w
  = (line <- py_index "list" (split_lines code) (n - 1) ;;
     result_append (format_offending line))
      (set_channel
         (channel w ++ [format_failed (exn_class e) (pretty n) (py_str d)])
         w).
Proof.
  intros Hk Hargs Hline.
  unfold unsafe_execute, try_except.
  unfold bind at 1. unfold raise at 1. cbv beta iota.
  rewrite Hk, Hargs, Hline.
  unfold bind at 1.
  rewrite (py_index_in_range "tuple" (d :: args) 0 d) by done.
  unfold bind at 1. unfold result_append at 1, modify.
  unfold bind at 1. unfold minus_one, ret. done.
Qed.



(** X11: a syntax error with a line number [n] that is zero or negative,
    down to [1 - len]: Python's indexing counts [n - 1] from the end, so the
    entry after the failure entry is the line [len + n - 1] of the text;
    for line number 0 it is the last line. *)
Theorem syntax_line_counts_from_end (code : string) (timeout : Z) (e : exn)
    (n : Z) (detail : string) (w : world) :
  exn_kind e = BSyntaxError →
  failure_report e = Some (n, detail) →
  let lines := split_lines code in
  let len := Z.of_nat (length lines) in
  - len < n ≤ 0 →
  ∃ line,
    lines !! Z.to_nat (len + n - 1) = Some line
    ∧ unsafe_execute code (raise e) timeout w
      = (set_channel
           (channel w ++ [format_failed (exn_class e) (pretty n) detail;
                          format_offending line]) w,
         Ret tt).
Proof.
  intros Hk Hrep lines len Hn.
  unfold failure_report in Hrep. rewrite Hk in Hrep.
  destruct (exn_args e) as [|d args] eqn:Hargs; [done|].
  destruct (exn_lineno e) as [m|] eqn:Hline; [|done].
  injection Hrep as -> <-.
  destruct (lookup_lt_is_Some_2 lines (Z.to_nat (len + n - 1)))
    as [line Hl]; [unfold len in *; lia|].
  exists line. split; [done|].
  rewrite (syntax_handler_run code timeout e d args n) by done.
  unfold bind.
  rewrite (py_index_from_end _ _ _ line).
  - unfold result_append, modify. destruct w; simpl.
    by rewrite <- app_assoc.
  - fold lines len. lia.
  - fold lines len. by replace (n - 1 + len) with (len + n - 1) by lia.
Qed.

Lemma syntax_line_counts_from_end_witness :
  failure_report SyntaxError_line_zero = Some (0, "boom")
  ∧ channel (fst (unsafe_execute prog_line_zero (raise SyntaxError_line_zero)
                    3 w0))
    = [ "failed: SyntaxError at line 0: boom";
        "Offending line: raise SyntaxError('boom', ('f', 0, 0, ''))" ].
Proof.
  split; [reflexivity|].
  destruct (syntax_line_counts_from_end prog_line_zero 3
              SyntaxError_line_zero 0 "boom" w0 eq_refl eq_refl)
    as (line & Hl & Hrun); [by vm_compute|].
  rewrite Hrun. vm_compute in Hl. injection Hl as <-. reflexivity.
Defined.

(** ** What the supervisor reports, by the way the program ended *)

(** The answer and the final list, from the list the worker left. *)
Lemma check_correctness_by_channel (code : string) (exec_code : M unit)
    (timeout : Z) (w : world) :
  let ch :=
    channel (fst (unsafe_execute code exec_code timeout (child_world w))) in
  channel (fst (check_correctness code exec_code timeout w)) = final_result ch
  ∧ snd (check_correctness code exec_code timeout w)
    = Ret (verdict_of (final_result ch)).
Proof.
  intros ch. split.
  - by rewrite check_correctness_channel, inspected_channel_run.
  - rewrite check_correctness_run. simpl.
    fold (inspected_channel code exec_code timeout w).
    by rewrite inspected_channel_run.
Qed.

(** X12: the final list and the answer for a program that leaves the list
    alone, by the way the program ended.  A program that returns gives
    [["passed"]] and [True].  A program terminated by the timer gives
    [["timed out"]] and [False], and so does a program that ends with
    [SystemExit] or another exception that is not an [Exception]: the
    list cannot tell [exit()] from a timeout.  An [Exception] other than a
    syntax error gives the failure entries and [False]. *)
Theorem supervisor_report_by_outcome (code : string) (exec_code : M unit)
    (timeout : Z) (w : world) :
  keeps_channel exec_code →
  let r := snd (exec_code (child_world w)) in
  let out := check_correctness code exec_code timeout w in
  (r = Ret tt → channel (fst out) = ["passed"] ∧ snd out = Ret true)
  ∧ (r = Hang → channel (fst out) = ["timed out"] ∧ snd out = Ret false)
  ∧ (∀ e, r = Raise e →
       exn_kind e = BSystemExit ∨ exn_kind e = BBaseException →
       channel (fst out) = ["timed out"] ∧ snd out = Ret false)
  ∧ (∀ e, r = Raise e → exn_kind e = BException →
       channel (fst out)
       = failure_entries code e (tb_last_line e) (exn_str e)
       ∧ snd out = Ret false).
Proof.
  intros Hkeep r out.
  destruct (check_correctness_by_channel code exec_code timeout w)
    as [Hch Hv].
  fold out in Hch, Hv. rewrite Hch, Hv. clear Hch Hv.
  pose proof (Hkeep (child_world w)) as Hk.
  replace (channel (child_world w)) with (@nil string) in Hk
    by by destruct w.
  subst r. destruct (exec_code (child_world w)) as [wp rp] eqn:Hexec.
  simpl in *.
  split; [|split; [|split]].
  - intros ->. rewrite (unsafe_execute_ret _ _ _ _ _ Hexec).
    replace (channel (fst _)) with (channel wp ++ ["passed"])
      by by destruct wp.
    by rewrite Hk.
  - intros ->. rewrite (unsafe_execute_hang _ _ _ _ _ Hexec).
    simpl. by rewrite Hk.
  - intros e -> Hkind.
    rewrite (unsafe_execute_uncaught _ _ _ _ _ _ Hexec Hkind).
    simpl. by rewrite Hk.
  - intros e -> Hkind.
    rewrite (unsafe_execute_raise _ _ _ _ _ _ Hexec).
    rewrite unsafe_execute_exception by done.
    replace (channel (fst _)) with
      (channel wp ++ failure_entries code e (tb_last_line e) (exn_str e))
      by by destruct wp.
    by rewrite Hk.
Qed.

Lemma supervisor_report_by_outcome_witness :
  keeps_channel exec_exit
  ∧ snd (exec_exit (child_world w0)) = Raise SystemExit_
  ∧ channel (fst (check_correctness prog_exit exec_exit 3 w0))
    = ["timed out"].
Proof.
  assert (Hkeep : keeps_channel exec_exit).
  { intros v. unfold exec_exit, call, raise. by case_bool_decide. }
  split; [exact Hkeep|]. split; [reflexivity|].
  destruct (supervisor_report_by_outcome prog_exit exec_exit 3 w0 Hkeep)
    as (_ & _ & Hexit & _).
  exact (proj1 (Hexit SystemExit_ eq_refl (or_introl eq_refl))).
Defined.

(** ** Line numbers of the harness in the report *)

(** X13: the handler for [Exception] takes the line number of the last
    traceback entry, whatever code that entry belongs to.  When the
    exception was raised by the [exec(code)] call itself, before any line
    of the program ran, the only entry is the call in [unsafe_execute]: the
    reported line number is 129, and the entry that follows is line 129 of
    the program when the program has that many lines. *)
Theorem failure_in_exec_call_reports_harness_line (code : string)
    (timeout : Z) (e : exn) (w : world) :
  exn_kind e = BException →
  exn_tb e = [] →
  fst (unsafe_execute code (raise e) timeout w)
  = set_channel
      (channel w
       ++ format_failed (exn_class e) "129" (exn_str e)
          :: match split_lines code !! 128%nat with
             | Some line => [format_offending line]
             | None => []
             end) w.
Proof.
  intros Hk Htb. rewrite unsafe_execute_exception by done.
  unfold failure_entries, tb_last_line. by rewrite Htb.
Qed.

Lemma failure_in_exec_call_reports_harness_line_witness :
  let code := "x = 1" +:+ String Ascii.zero "" in
  let e := mkExn BException "ValueError"
             [PStr "source code string cannot contain null bytes"]
             "source code string cannot contain null bytes" None [] in
  channel (fst (unsafe_execute code (raise e) 3 w0))
  = ["failed: ValueError at line 129: source code string cannot contain null bytes"].
Proof.
  intros code e.
  rewrite (failure_in_exec_call_reports_harness_line code 3 e w0
             eq_refl eq_refl).
  reflexivity.
Defined.
